(** * SkyRide booking repository: [src/integrations/supabase/bookings.ts]

    A shallow embedding of the four operations of the module
    ([saveBooking], [fetchUserBookings], [fetchAllBookings],
    [updateBookingStatus]), of the two record mappings they perform, and
    of the [bookings] table declared by the SQL migration, followed by the
    properties of the specification that concern them and by further
    properties of the module. *)

From Stdlib Require Import ZArith Lia.
From stdpp Require Import base option list sorting strings.

Local Open Scope string_scope.
Local Open Scope Z_scope.

(** ** JavaScript values *)

(** A Number, by IEEE 754 class; a finite non-zero value is
    [(-1)^negative * mantissa * 2^exponent]. *)
Inductive number : Type :=
  | NaN
  | Infinity (negative : bool)
  | Zero (negative : bool)
  | Finite (negative : bool) (mantissa : positive) (exponent : Z).

(** The Number of an integer literal. *)
Definition number_of_Z (z : Z) : number :=
  match z with
  | Z0 => Zero false
  | Zpos p => Finite false p 0
  | Zneg p => Finite true p 0
  end.

(** A property of an object read at run time: TypeScript's annotations are
    erased and the rows are read as [any], so a property is [undefined]
    (absent), [null], or holds a value of its declared type. *)
Inductive optional (A : Type) : Type :=
  | undefined
  | null
  | value (a : A).
Arguments undefined {A}.
Arguments null {A}.
Arguments value {A} a.

(** ToBoolean on the values of a type. *)
Class Truthy (A : Type) := truthy : A → bool.

(** The empty string is falsy. *)
#[global] Instance string_truthy : Truthy string :=
  fun s => match s with EmptyString => false | String _ _ => true end.

(** [+0], [-0] and [NaN] are falsy. *)
#[global] Instance number_truthy : Truthy number :=
  fun n => match n with NaN | Zero _ => false | _ => true end.

Definition ToBoolean {A} `{Truthy A} (x : optional A) : bool :=
  match x with
  | value a => truthy a
  | undefined | null => false
  end.

(** [x || y] *)
Definition or_else {A} `{Truthy A} (x y : optional A) : optional A :=
  if ToBoolean x then x else y.
Infix "|||" := or_else (at level 50, left associativity).

(** What a [throw] carries: an [Error] object with its message, or any
    other value. *)
Inductive thrown : Type :=
  | Error (message : string)
  | NotAnError.

(** The completion of an expression: a value or an abrupt [throw]. *)
Inductive completion (A : Type) : Type :=
  | Normal (a : A)
  | Throw (e : thrown).
Arguments Normal {A} a.
Arguments Throw {A} e.

#[global] Instance completion_ret : MRet completion := @Normal.
#[global] Instance completion_bind : MBind completion := fun A B f c =>
  match c with
  | Normal a => f a
  | Throw e => Throw e
  end.

(** [parseFloat(n.toString())] for a Number [n].  [Number::toString] gives
    ["NaN"], ["Infinity"], ["-Infinity"], ["0"] for both zeros, and for any
    other finite value the shortest decimal whose Number value is [n];
    [parseFloat] reads each of them back. *)
Definition parseFloat_toString (n : number) : number :=
  match n with
  | Zero _ => Zero false
  | _ => n
  end.

(** [parseFloat(x.toString())] where [x] is a property: reading [toString]
    off [undefined] or [null] throws a TypeError (V8's wording). *)
Definition parseFloat_of_toString (x : optional number) : completion number :=
  match x with
  | value n => Normal (parseFloat_toString n)
  | undefined =>
      Throw (Error "Cannot read properties of undefined (reading 'toString')")
  | null =>
      Throw (Error "Cannot read properties of null (reading 'toString')")
  end.

(** ** Data model *)

(** [{ lat: number; lng: number; address?: string }] *)
Record Location : Type := {
  lat : number;
  lng : number;
  address : optional string;
}.

(** Modelled from the spec: the [Booking] interface of [@/types/booking],
    which is imported but not part of the sources; the fields are those of
    the data model of the specification, in the order in which the fetch
    operations build them. *)
Module Booking.
Record t : Type := mk {
  id : optional string;
  startLocation : optional Location;
  endLocation : optional Location;
  tier : optional string;
  distance : optional number;
  fare : optional number;
  status : optional string;
  taxiId : optional string;
  eta : optional number;
  timestamp : optional number;
  userName : optional string;
  userPhone : optional string;
}.
End Booking.
Abbreviation Booking := Booking.t.

(** A row object on the JavaScript side: the payload of an insert
    ([BookingInsert]) and a record of a select, which also carries the
    column [created_at]. *)
Module Row.
Record t : Type := mk {
  id : optional string;
  user_name : optional string;
  user_phone : optional string;
  pickup_location : optional Location;
  drop_location : optional Location;
  taxi_tier : optional string;
  distance : optional number;
  fare : optional number;
  status : optional string;
  taxi_id : optional string;
  eta : optional number;
  timestamp : optional number;
  created_at : optional string;
}.
End Row.
Abbreviation Row := Row.t.

(** ** The two mappings *)

(** [bookingData] of [saveBooking]: the row payload of a booking.  The
    object literal names no [created_at]. *)
Definition bookingData (booking : Booking) : completion Row :=
  distance ← parseFloat_of_toString (Booking.distance booking);
  fare ← parseFloat_of_toString (Booking.fare booking);
  mret {|
    Row.id := Booking.id booking;
    Row.user_name := Booking.userName booking ||| value "";
    Row.user_phone := Booking.userPhone booking ||| value "";
    Row.pickup_location := Booking.startLocation booking;
    Row.drop_location := Booking.endLocation booking;
    Row.taxi_tier := Booking.tier booking;
    Row.distance := value distance;
    Row.fare := value fare;
    Row.status := Booking.status booking;
    Row.taxi_id := Booking.taxiId booking ||| null;
    Row.eta := Booking.eta booking ||| null;
    Row.timestamp := Booking.timestamp booking;
    Row.created_at := undefined;
  |}.

(** The object that the arrow function of [fetchUserBookings] and
    [fetchAllBookings] builds from a record: the record read back as a
    booking. *)
Definition recordToBooking (record : Row) : Booking := {|
  Booking.id := Row.id record;
  Booking.startLocation := Row.pickup_location record;
  Booking.endLocation := Row.drop_location record;
  Booking.tier := Row.taxi_tier record;
  Booking.distance := Row.distance record;
  Booking.fare := Row.fare record;
  Booking.status := Row.status record;
  Booking.taxiId := Row.taxi_id record;
  Booking.eta := Row.eta record;
  Booking.timestamp := Row.timestamp record;
  Booking.userName := Row.user_name record;
  Booking.userPhone := Row.user_phone record;
|}.

(** The arrow function applied to an element of [data]: [record.id] is the
    first property it reads, and reading it off [undefined] or [null]
    throws a TypeError. *)
Definition mapRecord (record : optional Row) : completion Booking :=
  match record with
  | value record => Normal (recordToBooking record)
  | undefined =>
      Throw (Error "Cannot read properties of undefined (reading 'id')")
  | null =>
      Throw (Error "Cannot read properties of null (reading 'id')")
  end.

(** ** The store client *)

(** The error object of a response; only its message is read. *)
Record PostgrestError : Type := { message : string }.

(** An array is truthy, even when it is empty. *)
#[global] Instance list_truthy {A} : Truthy (list A) := fun _ => true.

(** [{ data, error }], as the operations destructure it. *)
Module Response.
Record t : Type := mk {
  data : optional (list (optional Row));
  error : optional PostgrestError;
}.
End Response.
Abbreviation Response := Response.t.

(** What a query does to the table. *)
Inductive action : Type :=
  | Select (columns : string)
  | Insert (rows : list Row)
  | Update (patch : list (string * string)).

(** A request as the builder chain leaves it when it is awaited. *)
Record Query : Type := {
  q_table : string;
  q_action : action;
  q_filters : list (string * string);
  q_order : option (string * bool);
  q_limit : option number;
}.

(** The methods of the query builder. *)
Module Postgrest.
Definition from (table : string) : string := table.
Definition select (columns : string) (table : string) : Query :=
  {| q_table := table; q_action := Select columns;
     q_filters := []; q_order := None; q_limit := None |}.
Definition insert (rows : list Row) (table : string) : Query :=
  {| q_table := table; q_action := Insert rows;
     q_filters := []; q_order := None; q_limit := None |}.
Definition update (patch : list (string * string)) (table : string) : Query :=
  {| q_table := table; q_action := Update patch;
     q_filters := []; q_order := None; q_limit := None |}.
Definition eq (column operand : string) (q : Query) : Query :=
  {| q_table := q_table q; q_action := q_action q;
     q_filters := q_filters q ++ [(column, operand)];
     q_order := q_order q; q_limit := q_limit q |}.
Definition order (column : string) (ascending : bool) (q : Query) : Query :=
  {| q_table := q_table q; q_action := q_action q;
     q_filters := q_filters q;
     q_order := Some (column, ascending); q_limit := q_limit q |}.
Definition limit (count : number) (q : Query) : Query :=
  {| q_table := q_table q; q_action := q_action q;
     q_filters := q_filters q;
     q_order := q_order q; q_limit := Some count |}.
End Postgrest.

(** [x .m(args)] *)
Notation "x |> f" := (f x) (at level 45, left associativity, only parsing).

(** ** Effects: the remote state and abrupt completions *)

Definition eff (S A : Type) : Type := S → completion A * S.

#[global] Instance eff_ret {S} : MRet (eff S) := fun A a σ => (Normal a, σ).
#[global] Instance eff_bind {S} : MBind (eff S) := fun A B f m σ =>
  match m σ with
  | (Normal a, σ') => f a σ'
  | (Throw e, σ') => (Throw e, σ')
  end.

(** A pure expression evaluated inside an operation. *)
Definition lift {S A} (c : completion A) : eff S A := fun σ => (c, σ).

(** [try { body } catch (error) { handler }] *)
Definition try_catch {S A} (body : eff S A) (handler : thrown → eff S A)
  : eff S A := fun σ =>
  match body σ with
  | (Normal a, σ') => (Normal a, σ')
  | (Throw e, σ') => handler e σ'
  end.

(** [error instanceof Error ? error.message : 'Unknown error'] *)
Definition catch_message (error : thrown) : string :=
  match error with
  | Error m => m
  | NotAnError => "Unknown error"
  end.

(** [xs.map(f)]: [f] is applied to the elements in order, and a throw of
    [f] ends the call; reading [map] off [undefined] or [null] throws. *)
Definition array_map {A B} (f : A → completion B) (xs : optional (list A))
  : completion (list B) :=
  match xs with
  | value l => mapM f l
  | undefined =>
      Throw (Error "Cannot read properties of undefined (reading 'map')")
  | null =>
      Throw (Error "Cannot read properties of null (reading 'map')")
  end.

(** ** The four operations *)

(** [{ success: boolean; error?: string }] *)
Module WriteResult.
Record t : Type := mk { success : bool; error : optional string }.
End WriteResult.
Abbreviation WriteResult := WriteResult.t.

(** [{ bookings: Booking[]; error?: string }] *)
Module FetchResult.
Record t : Type := mk { bookings : list Booking; error : optional string }.
End FetchResult.
Abbreviation FetchResult := FetchResult.t.

Section Operations.

(** The remote store behind the shared client: awaiting a query answers
    with a response, or throws, and may change the remote state.  The calls
    to [console.error] write to the console only and are left out. *)
Context {Store : Type}.
Variable await : Query → eff Store Response.

Definition saveBooking (booking : Booking) : eff Store WriteResult :=
  try_catch
    (bookingData ← lift (bookingData booking);
     response ← await (Postgrest.from "bookings"
                       |> Postgrest.insert [bookingData]);
     match Response.error response with
     | value error =>
         mret {| WriteResult.success := false;
                 WriteResult.error := value (message error) |}
     | undefined | null =>
         mret {| WriteResult.success := true;
                 WriteResult.error := undefined |}
     end)
    (fun error =>
       mret {| WriteResult.success := false;
               WriteResult.error := value (catch_message error) |}).

(** The mapping of a fetched response, shared by the two fetch
    operations (the source repeats it). *)
Definition fetched (response : Response) : eff Store FetchResult :=
  match Response.error response with
  | value error =>
      mret {| FetchResult.bookings := [];
              FetchResult.error := value (message error) |}
  | undefined | null =>
      bookings ← lift (array_map mapRecord
                         (Response.data response ||| value []));
      mret {| FetchResult.bookings := bookings;
              FetchResult.error := undefined |}
  end.

Definition fetch_failed (error : thrown) : eff Store FetchResult :=
  mret {| FetchResult.bookings := [];
          FetchResult.error := value (catch_message error) |}.

Definition fetchUserBookings (userPhone : string) : eff Store FetchResult :=
  try_catch
    (response ← await (Postgrest.from "bookings"
                       |> Postgrest.select "*"
                       |> Postgrest.eq "user_phone" userPhone
                       |> Postgrest.order "timestamp" false);
     fetched response)
    fetch_failed.

(** [limit: number = 50]: the default stands in for an omitted argument. *)
Definition fetchAllBookings (limit : option number) : eff Store FetchResult :=
  let limit := default (number_of_Z 50) limit in
  try_catch
    (response ← await (Postgrest.from "bookings"
                       |> Postgrest.select "*"
                       |> Postgrest.order "timestamp" false
                       |> Postgrest.limit limit);
     fetched response)
    fetch_failed.

Definition updateBookingStatus (bookingId status : string)
  : eff Store WriteResult :=
  try_catch
    (response ← await (Postgrest.from "bookings"
                       |> Postgrest.update [("status", status)]
                       |> Postgrest.eq "id" bookingId);
     match Response.error response with
     | value error =>
         mret {| WriteResult.success := false;
                 WriteResult.error := value (message error) |}
     | undefined | null =>
         mret {| WriteResult.success := true;
                 WriteResult.error := undefined |}
     end)
    (fun error =>
       mret {| WriteResult.success := false;
               WriteResult.error := value (catch_message error) |}).

End Operations.

(** ** The [bookings] table *)

(** A stored row, column by column as the migration declares them.  The
    two [NUMERIC(10, 2)] columns are held as the Numbers they read as, the
    [JSONB] columns as the locations written to them. *)
Module Table.
Record row : Type := mk {
  id : string;                  (* TEXT PRIMARY KEY *)
  user_name : string;           (* TEXT NOT NULL *)
  user_phone : string;          (* TEXT NOT NULL *)
  pickup_location : Location;   (* JSONB NOT NULL *)
  drop_location : Location;     (* JSONB NOT NULL *)
  taxi_tier : string;           (* TEXT NOT NULL *)
  distance : number;            (* NUMERIC(10, 2) NOT NULL *)
  fare : number;                (* NUMERIC(10, 2) NOT NULL *)
  status : string;              (* TEXT NOT NULL DEFAULT 'assigned' *)
  taxi_id : option string;      (* TEXT *)
  eta : option Z;               (* INTEGER *)
  timestamp : Z;                (* BIGINT NOT NULL *)
  created_at : option string;   (* TIMESTAMP WITH TIME ZONE DEFAULT now *)
}.

(** The text columns, which a filter or a patch may name. *)
Inductive text_column : Type :=
  | c_id | c_user_name | c_user_phone | c_taxi_tier | c_status | c_taxi_id.

Definition text_column_of (name : string) : option text_column :=
  if String.eqb name "id" then Some c_id
  else if String.eqb name "user_name" then Some c_user_name
  else if String.eqb name "user_phone" then Some c_user_phone
  else if String.eqb name "taxi_tier" then Some c_taxi_tier
  else if String.eqb name "status" then Some c_status
  else if String.eqb name "taxi_id" then Some c_taxi_id
  else None.

(** The content of a text column; [None] is SQL's NULL. *)
Definition read (c : text_column) (r : row) : option string :=
  match c with
  | c_id => Some (id r)
  | c_user_name => Some (user_name r)
  | c_user_phone => Some (user_phone r)
  | c_taxi_tier => Some (taxi_tier r)
  | c_status => Some (status r)
  | c_taxi_id => taxi_id r
  end.

Definition write (c : text_column) (v : string) (r : row) : row :=
  match c with
  | c_id =>
      mk v (user_name r) (user_phone r) (pickup_location r) (drop_location r)
        (taxi_tier r) (distance r) (fare r) (status r) (taxi_id r) (eta r)
        (timestamp r) (created_at r)
  | c_user_name =>
      mk (id r) v (user_phone r) (pickup_location r) (drop_location r)
        (taxi_tier r) (distance r) (fare r) (status r) (taxi_id r) (eta r)
        (timestamp r) (created_at r)
  | c_user_phone =>
      mk (id r) (user_name r) v (pickup_location r) (drop_location r)
        (taxi_tier r) (distance r) (fare r) (status r) (taxi_id r) (eta r)
        (timestamp r) (created_at r)
  | c_taxi_tier =>
      mk (id r) (user_name r) (user_phone r) (pickup_location r)
        (drop_location r) v (distance r) (fare r) (status r) (taxi_id r)
        (eta r) (timestamp r) (created_at r)
  | c_status =>
      mk (id r) (user_name r) (user_phone r) (pickup_location r)
        (drop_location r) (taxi_tier r) (distance r) (fare r) v (taxi_id r)
        (eta r) (timestamp r) (created_at r)
  | c_taxi_id =>
      mk (id r) (user_name r) (user_phone r) (pickup_location r)
        (drop_location r) (taxi_tier r) (distance r) (fare r) (status r)
        (Some v) (eta r) (timestamp r) (created_at r)
  end.

(** [column = operand]; NULL equals nothing. *)
Definition satisfies (f : text_column * string) (r : row) : bool :=
  match read f.1 r with
  | Some s => String.eqb s f.2
  | None => false
  end.

(** [r1] comes no later than [r2] under [ORDER BY timestamp DESC]. *)
Definition newer_first (r1 r2 : row) : Prop := timestamp r2 ≤ timestamp r1.
Definition older_first (r1 r2 : row) : Prop := timestamp r1 ≤ timestamp r2.
End Table.

#[global] Instance newer_first_dec : RelDecision Table.newer_first :=
  fun r1 r2 => decide (Table.timestamp r2 ≤ Table.timestamp r1).
#[global] Instance older_first_dec : RelDecision Table.older_first :=
  fun r1 r2 => decide (Table.timestamp r1 ≤ Table.timestamp r2).

Definition optional_of {A} (o : option A) : optional A :=
  match o with
  | Some a => value a
  | None => null
  end.

(** A stored row as a select returns it: every column is present, NULL
    reads as [null]. *)
Definition render (r : Table.row) : Row := {|
  Row.id := value (Table.id r);
  Row.user_name := value (Table.user_name r);
  Row.user_phone := value (Table.user_phone r);
  Row.pickup_location := value (Table.pickup_location r);
  Row.drop_location := value (Table.drop_location r);
  Row.taxi_tier := value (Table.taxi_tier r);
  Row.distance := value (Table.distance r);
  Row.fare := value (Table.fare r);
  Row.status := value (Table.status r);
  Row.taxi_id := optional_of (Table.taxi_id r);
  Row.eta := optional_of (number_of_Z <$> Table.eta r);
  Row.timestamp := value (number_of_Z (Table.timestamp r));
  Row.created_at := optional_of (Table.created_at r);
|}.

(** The integer a Number stands for, if it is one. *)
Definition integer_of (n : number) : option Z :=
  match n with
  | Zero _ => Some 0
  | Finite s m e =>
      let sign := if s then Z.opp else fun z => z in
      if 0 <=? e then Some (sign (Z.pos m * 2 ^ e))
      else if Z.pos m mod 2 ^ (- e) =? 0 then Some (sign (Z.pos m / 2 ^ (- e)))
      else None
  | NaN | Infinity _ => None
  end.

(** A filter or a patch entry by column: none if it names something other
    than a text column. *)
Definition by_column {A} (entries : list (string * A))
  : option (list (Table.text_column * A)) :=
  mapM (fun e => c ← Table.text_column_of e.1; Some (c, e.2)) entries.

Definition where_ (filters : list (Table.text_column * string))
  (r : Table.row) : bool :=
  forallb (fun f => Table.satisfies f r) filters.

Definition set_ (patch : list (Table.text_column * string))
  (r : Table.row) : Table.row :=
  foldl (fun r e => Table.write e.1 e.2 r) r patch.

(** [ORDER BY timestamp], ties in table order. *)
Definition order_by_timestamp (ascending : bool) (rows : list Table.row)
  : list Table.row :=
  if ascending then merge_sort Table.older_first rows
  else merge_sort Table.newer_first rows.

(** [LIMIT count] for a positive integer count; none for any other
    Number. *)
Definition limit_rows (count : number) (rows : list Table.row)
  : option (list Table.row) :=
  match integer_of count with
  | Some (Z.pos n) => Some (take (Pos.to_nat n) rows)
  | _ => None
  end.

(** Modelled from the spec: the rows that the store, which is not part
    of the sources, returns to a select: those that match every filter
    exactly, ordered by [timestamp], truncated to the limit if there is
    one.  None for a select outside the reference semantics. *)
Definition select_rows (q : Query) (table : list Table.row)
  : option (list Table.row) :=
  filters ← by_column (q_filters q);
  '(column, ascending) ← q_order q;
  if negb (String.eqb column "timestamp") then None
  else
    let rows :=
      order_by_timestamp ascending
        (List.filter (where_ filters) table) in
    match q_limit q with
    | None => Some rows
    | Some count => limit_rows count rows
    end.

(** Modelled from the spec: the table that the store, which is not part
    of the sources, is left with by a partial update: the patch is applied
    to the rows that match every filter exactly.  None for an update
    outside the reference semantics. *)
Definition update_rows (patch : list (string * string)) (q : Query)
  (table : list Table.row) : option (list Table.row) :=
  filters ← by_column (q_filters q);
  patch ← by_column patch;
  match q_order q, q_limit q with
  | None, None =>
      if existsb (fun e => match e.1 with Table.c_id => true | _ => false end)
           patch
      then None
      else
        Some (map (fun r => if where_ filters r then set_ patch r else r)
                table)
  | _, _ => None
  end.

Section ReferenceStore.

(** How the store answers the queries that the reference semantics below
    does not cover: inserts, with their constraint checks and coercions,
    limits that are not positive integers, and so on. *)
Variable store_defined : Query → eff (list Table.row) Response.

(** Modelled from the spec: the store behind the [supabase] client of
    [./client], which is imported but not part of the sources.  The
    reference semantics covers the selects and updates of this module:
    [select('*')] with exact-match filters on text columns, ordered by
    [timestamp] and optionally truncated to a positive count, and a partial
    [update] of text columns other than the key on the rows that match.
    The row-level policies of the migration allow all three actions to
    everyone.  A select answers with the rows and no error; an update
    without a select answers with neither data nor error. *)
Definition execute (q : Query) : eff (list Table.row) Response :=
  fun table =>
  if negb (String.eqb (q_table q) "bookings") then store_defined q table
  else
    match q_action q with
    | Select columns =>
        match
          (if String.eqb columns "*" then select_rows q table else None)
        with
        | Some rows =>
            (Normal (Response.mk (value (map (fun r => value (render r)) rows))
                       null),
             table)
        | None => store_defined q table
        end
    | Update patch =>
        match update_rows patch q table with
        | Some table' => (Normal (Response.mk null null), table')
        | None => store_defined q table
        end
    | Insert _ => store_defined q table
    end.

End ReferenceStore.

(** ** Vocabulary of the statements, and sample data *)

(** A property that holds no value. *)
Definition unset {A} (x : optional A) : Prop := x = undefined ∨ x = null.

Definition helipad : Location :=
  {| lat := Finite false 25 (-1); lng := Finite true 617 (-3);
     address := value "Pier 6 helipad" |}.

Definition airfield : Location :=
  {| lat := Finite false 13 0; lng := Finite true 77 0;
     address := undefined |}.

(** A booking with every field filled in, the name with the empty
    string. *)
Definition booking_full : Booking := {|
  Booking.id := value "BK1700000000000";
  Booking.startLocation := value helipad;
  Booking.endLocation := value airfield;
  Booking.tier := value "premium";
  Booking.distance := value (Finite false 37 (-1));
  Booking.fare := value (Finite false 1499 (-2));
  Booking.status := value "assigned";
  Booking.taxiId := value "SKY-042";
  Booking.eta := value (number_of_Z 7);
  Booking.timestamp := value (number_of_Z 1700000000000);
  Booking.userName := value "";
  Booking.userPhone := value "555-0100";
|}.

(** A booking whose taxi has arrived ([eta] is 0) and has no [taxiId]. *)
Definition booking_arrived : Booking := {|
  Booking.id := value "BK1700000000001";
  Booking.startLocation := value helipad;
  Booking.endLocation := value airfield;
  Booking.tier := value "economy";
  Booking.distance := value (Finite false 37 (-1));
  Booking.fare := value (Finite false 1499 (-2));
  Booking.status := value "in-progress";
  Booking.taxiId := undefined;
  Booking.eta := value (Zero false);
  Booking.timestamp := value (number_of_Z 1700000000001);
  Booking.userName := value "Asha";
  Booking.userPhone := value "555-0100";
|}.

(** The two shapes of a write result and the failure shape of a fetch. *)
Definition write_ok : WriteResult :=
  {| WriteResult.success := true; WriteResult.error := undefined |}.
Definition write_failure (m : string) : WriteResult :=
  {| WriteResult.success := false; WriteResult.error := value m |}.
Definition fetch_ok (bookings : list Booking) : FetchResult :=
  {| FetchResult.bookings := bookings; FetchResult.error := undefined |}.
Definition fetch_failure (m : string) : FetchResult :=
  {| FetchResult.bookings := []; FetchResult.error := value m |}.

(** The message of the failure that the outcome of an awaited query
    carries, if it carries one: that of the error of the response, or the
    one the [catch] clause derives from what was thrown. *)
Definition failure_of (outcome : completion Response) : option string :=
  match outcome with
  | Throw e => Some (catch_message e)
  | Normal response =>
      match Response.error response with
      | value e => Some (message e)
      | undefined | null => None
      end
  end.

(** The mapping of the records of a response that carries no error. *)
Definition bookings_of (response : Response) : completion (list Booking) :=
  array_map mapRecord (Response.data response ||| value []).

(** What a fetch operation returns for the outcome of its query. *)
Definition fetch_result (outcome : completion Response) : FetchResult :=
  match outcome with
  | Throw e => fetch_failure (catch_message e)
  | Normal response =>
      match Response.error response with
      | value e => fetch_failure (message e)
      | undefined | null =>
          match bookings_of response with
          | Normal bookings => fetch_ok bookings
          | Throw e => fetch_failure (catch_message e)
          end
      end
  end.

(** The queries that the four operations await. *)
Definition insert_query (row : Row) : Query :=
  Postgrest.from "bookings" |> Postgrest.insert [row].
Definition user_query (userPhone : string) : Query :=
  Postgrest.from "bookings" |> Postgrest.select "*"
  |> Postgrest.eq "user_phone" userPhone
  |> Postgrest.order "timestamp" false.
Definition recent_query (limit : number) : Query :=
  Postgrest.from "bookings" |> Postgrest.select "*"
  |> Postgrest.order "timestamp" false
  |> Postgrest.limit limit.
Definition status_query (bookingId status : string) : Query :=
  Postgrest.from "bookings" |> Postgrest.update [("status", status)]
  |> Postgrest.eq "id" bookingId.

(** A store seen through a log of the queries it is sent. *)
Definition recording {S} (await : Query → eff S Response)
  : Query → eff (list Query * S) Response :=
  fun q '(log, σ) => let '(c, σ') := await q σ in (c, ((log ++ [q])%list, σ')).

(** A store that fails every query with an error whose message is
    empty, as a gateway does that answers with an error status and no
    body. *)
Definition silent_failure : Query → eff unit Response :=
  fun _ σ => (Normal (Response.mk null (value {| message := "" |})), σ).

(** A store that answers every query with neither data nor error. *)
Definition no_content : Query → eff unit Response :=
  fun _ σ => (Normal (Response.mk null null), σ).

(** A store that throws on whatever the reference semantics leaves
    open. *)
Definition unsupported : Query → eff (list Table.row) Response :=
  fun _ table => (Throw (Error "unsupported query"), table).

(** A table of three bookings of two passengers. *)
Definition stored (id phone : string) (timestamp : Z) : Table.row := {|
  Table.id := id;
  Table.user_name := "Asha";
  Table.user_phone := phone;
  Table.pickup_location := helipad;
  Table.drop_location := airfield;
  Table.taxi_tier := "standard";
  Table.distance := Finite false 37 (-1);
  Table.fare := Finite false 1499 (-2);
  Table.status := "assigned";
  Table.taxi_id := Some "SKY-042";
  Table.eta := Some 7;
  Table.timestamp := timestamp;
  Table.created_at := Some "2023-11-14T22:13:20+00:00";
|}.

Definition sample_table : list Table.row :=
  [ stored "BK1" "555-0100" 1700000000000;
    stored "BK2" "555-0199" 1700000300000;
    stored "BK3" "555-0100" 1700000200000 ].

(** A property that holds a value. *)
Definition filled {A} (x : optional A) : Prop := ∃ a, x = value a.

(** A row holds a value for each column that the migration declares
    [NOT NULL], the primary key included; [taxi_id], [eta] and
    [created_at] are the nullable columns. *)
Definition fills_not_null (row : Row) : Prop :=
  filled (Row.id row)
  ∧ filled (Row.user_name row)
  ∧ filled (Row.user_phone row)
  ∧ filled (Row.pickup_location row)
  ∧ filled (Row.drop_location row)
  ∧ filled (Row.taxi_tier row)
  ∧ filled (Row.distance row)
  ∧ filled (Row.fare row)
  ∧ filled (Row.status row)
  ∧ filled (Row.timestamp row).


(** A booking whose [distance] was never computed. *)
Definition booking_unmeasured : Booking := {|
  Booking.id := value "BK1700000000002";
  Booking.startLocation := value helipad;
  Booking.endLocation := value airfield;
  Booking.tier := value "standard";
  Booking.distance := undefined;
  Booking.fare := value (Finite false 1499 (-2));
  Booking.status := value "pending";
  Booking.taxiId := undefined;
  Booking.eta := undefined;
  Booking.timestamp := value (number_of_Z 1700000000002);
  Booking.userName := value "Asha";
  Booking.userPhone := value "555-0100";
|}.

(** A booking of a passenger who gave neither name nor phone. *)
Definition booking_anonymous : Booking := {|
  Booking.id := value "BK1700000000003";
  Booking.startLocation := value helipad;
  Booking.endLocation := value airfield;
  Booking.tier := value "standard";
  Booking.distance := value (Finite false 37 (-1));
  Booking.fare := value (Finite false 1499 (-2));
  Booking.status := value "pending";
  Booking.taxiId := null;
  Booking.eta := null;
  Booking.timestamp := value (number_of_Z 1700000000003);
  Booking.userName := undefined;
  Booking.userPhone := null;
|}.

(** A store that answers every query with the same response. *)
Definition answering (response : Response) : Query → eff unit Response :=
  fun _ σ => (Normal response, σ).

(** A store that throws on every query. *)
Definition offline : Query → eff unit Response :=
  fun _ σ => (Throw (Error "Failed to fetch"), σ).

(** Two records as a select returns them. *)
Definition two_records : list Row :=
  [ render (stored "BK2" "555-0199" 1700000300000);
    render (stored "BK1" "555-0100" 1700000000000) ].

(** * Properties *)

(** ** Facts about the operators *)

Lemma or_else_truthy {A} `{Truthy A} (x y : optional A) :
  ToBoolean x = true → x ||| y = x.
Proof. unfold or_else. by intros ->. Qed.

Lemma or_else_falsy {A} `{Truthy A} (x y : optional A) :
  ToBoolean x = false → x ||| y = y.
Proof. unfold or_else. by intros ->. Qed.

Lemma or_else_unset {A} `{Truthy A} (x y : optional A) :
  unset x → x ||| y = y.
Proof. by intros [-> | ->]. Qed.

Lemma or_else_idem {A} `{Truthy A} (x y : optional A) :
  ToBoolean y = false → (x ||| y) ||| y = x ||| y.
Proof.
  intros Hy. destruct (ToBoolean x) eqn:Hx.
  - rewrite (or_else_truthy x y Hx). by apply or_else_truthy.
  - rewrite (or_else_falsy x y Hx). by apply or_else_falsy.
Qed.

Lemma or_else_null_defined {A} `{Truthy A} (x : optional A) :
  x ||| null ≠ undefined.
Proof. unfold or_else. by destruct x as [| |a]; simpl; [| |destruct (truthy a)]. Qed.

Lemma string_truthy_nonempty (s : string) : s ≠ "" → truthy s = true.
Proof. by destruct s. Qed.

Lemma parseFloat_toString_idem (n : number) :
  parseFloat_toString (parseFloat_toString n) = parseFloat_toString n.
Proof. by destruct n. Qed.

Lemma parseFloat_toString_id (n : number) :
  n ≠ Zero true → parseFloat_toString n = n.
Proof. destruct n as [| |[]|]; simpl; congruence. Qed.

(** The payload of a booking whose [distance] and [fare] are Numbers. *)
Lemma bookingData_numbers (b : Booking) (d f : number) :
  Booking.distance b = value d → Booking.fare b = value f →
  bookingData b = Normal {|
    Row.id := Booking.id b;
    Row.user_name := Booking.userName b ||| value "";
    Row.user_phone := Booking.userPhone b ||| value "";
    Row.pickup_location := Booking.startLocation b;
    Row.drop_location := Booking.endLocation b;
    Row.taxi_tier := Booking.tier b;
    Row.distance := value (parseFloat_toString d);
    Row.fare := value (parseFloat_toString f);
    Row.status := Booking.status b;
    Row.taxi_id := Booking.taxiId b ||| null;
    Row.eta := Booking.eta b ||| null;
    Row.timestamp := Booking.timestamp b;
    Row.created_at := undefined;
  |}.
Proof. unfold bookingData. by intros -> ->. Qed.

(** ** The mappings (C1, C3, C4) *)

(** C1, as stated, fails: the booking [booking_arrived] has [eta] 0 and no
    [taxiId]; its row carries [null] for both, and so does the booking read
    back from that row. *)
Lemma roundtrip_arrived_differs :
  ∃ row, bookingData booking_arrived = Normal row
    ∧ Booking.eta booking_arrived = value (Zero false)
    ∧ Booking.eta (recordToBooking row) = null
    ∧ Booking.taxiId booking_arrived = undefined
    ∧ Booking.taxiId (recordToBooking row) = null
    ∧ recordToBooking row ≠ booking_arrived.
Proof. eexists. repeat split; try reflexivity. discriminate. Qed.

(** C1, amended: for a booking whose [distance] and [fare] are Numbers the
    payload is built, and the booking read back from it agrees with the
    original on [id], [startLocation], [endLocation], [tier], [status] and
    [timestamp]; on [distance] and [fare] unless the value is negative
    zero; on [userName] and [userPhone] when they are strings, the empty
    string included, an unset one reading back as the empty string; on
    [taxiId] when it is a non-empty string and on [eta] when it is a
    truthy Number, an unset one reading back as [null]. *)
Theorem roundtrip_fields (b : Booking) (d f : number) :
  Booking.distance b = value d → Booking.fare b = value f →
  ∃ row, bookingData b = Normal row ∧
    let b' := recordToBooking row in
    Booking.id b' = Booking.id b
    ∧ Booking.startLocation b' = Booking.startLocation b
    ∧ Booking.endLocation b' = Booking.endLocation b
    ∧ Booking.tier b' = Booking.tier b
    ∧ Booking.status b' = Booking.status b
    ∧ Booking.timestamp b' = Booking.timestamp b
    ∧ (d ≠ Zero true → Booking.distance b' = Booking.distance b)
    ∧ (f ≠ Zero true → Booking.fare b' = Booking.fare b)
    ∧ (∀ s, Booking.userName b = value s → Booking.userName b' = value s)
    ∧ (unset (Booking.userName b) → Booking.userName b' = value "")
    ∧ (∀ s, Booking.userPhone b = value s → Booking.userPhone b' = value s)
    ∧ (unset (Booking.userPhone b) → Booking.userPhone b' = value "")
    ∧ (∀ s, Booking.taxiId b = value s → s ≠ "" →
         Booking.taxiId b' = value s)
    ∧ (unset (Booking.taxiId b) → Booking.taxiId b' = null)
    ∧ (∀ n, Booking.eta b = value n → truthy n = true →
         Booking.eta b' = value n)
    ∧ (unset (Booking.eta b) → Booking.eta b' = null).
Proof.
  intros Hd Hf. eexists. split; [by apply bookingData_numbers|].
  simpl. repeat split; try done.
  - intros Hz. by rewrite Hd, parseFloat_toString_id.
  - intros Hz. by rewrite Hf, parseFloat_toString_id.
  - intros s ->. by destruct s.
  - apply or_else_unset.
  - intros s ->. by destruct s.
  - apply or_else_unset.
  - intros s -> Hs. apply or_else_truthy. by apply string_truthy_nonempty.
  - apply or_else_unset.
  - intros n -> Hn. by apply or_else_truthy.
  - apply or_else_unset.
Qed.

(** The booking [booking_full] comes back from its row as it went in. *)
Lemma roundtrip_fields_witness :
  Booking.distance booking_full = value (Finite false 37 (-1))
  ∧ Booking.fare booking_full = value (Finite false 1499 (-2))
  ∧ ∃ row, bookingData booking_full = Normal row
      ∧ recordToBooking row = booking_full.
Proof.
  split; [reflexivity|]. split; [reflexivity|].
  destruct (roundtrip_fields booking_full _ _ eq_refl eq_refl)
    as (row & Hrow & Hid & Hstart & Hend & Htier & Hstatus & Htime
        & Hdist & Hfare & Hname & _ & Hphone & _ & Htaxi & _ & Heta & _).
  exists row. split; [exact Hrow|].
  destruct (recordToBooking row); simpl in *.
  rewrite Hid, Hstart, Hend, Htier, Hstatus, Htime.
  rewrite (Hdist ltac:(discriminate)), (Hfare ltac:(discriminate)).
  rewrite (Hname _ eq_refl), (Hphone _ eq_refl).
  rewrite (Htaxi _ eq_refl ltac:(discriminate)), (Heta _ eq_refl eq_refl).
  reflexivity.
Defined.

(** C3: for a booking whose [distance] and [fare] are Numbers, as they are
    in every valid booking, the payload of the booking read back from the
    payload is the payload again. *)
Theorem bookingData_stable (b : Booking) (d f : number) :
  Booking.distance b = value d → Booking.fare b = value f →
  ∃ row, bookingData b = Normal row
    ∧ bookingData (recordToBooking row) = Normal row.
Proof.
  intros Hd Hf. eexists. split; [by apply bookingData_numbers|].
  erewrite bookingData_numbers by reflexivity. simpl.
  by rewrite !or_else_idem, !parseFloat_toString_idem.
Qed.

(** The payload of [booking_arrived] is stable. *)
Lemma bookingData_stable_witness :
  ∃ row, bookingData booking_arrived = Normal row
    ∧ bookingData (recordToBooking row) = Normal row.
Proof. apply (bookingData_stable booking_arrived _ _ eq_refl eq_refl). Defined.

(** C4: in the payload of a booking, an unset [taxiId] gives a [taxi_id]
    that is [null] and an unset [eta] an [eta] that is [null]; neither
    property is ever [undefined], which is what an omitted key reads as. *)
Theorem bookingData_explicit_null (b : Booking) (d f : number) :
  Booking.distance b = value d → Booking.fare b = value f →
  ∃ row, bookingData b = Normal row
    ∧ (unset (Booking.taxiId b) → Row.taxi_id row = null)
    ∧ (unset (Booking.eta b) → Row.eta row = null)
    ∧ Row.taxi_id row ≠ undefined
    ∧ Row.eta row ≠ undefined.
Proof.
  intros Hd Hf. eexists. split; [by apply bookingData_numbers|].
  simpl. repeat split;
    auto using @or_else_unset, @or_else_null_defined.
Qed.

(** [booking_arrived] has no [taxiId]: its payload has a [taxi_id] that
    is [null]. *)
Lemma bookingData_explicit_null_witness :
  unset (Booking.taxiId booking_arrived)
  ∧ ∃ row, bookingData booking_arrived = Normal row
      ∧ Row.taxi_id row = null.
Proof.
  assert (Hunset : unset (Booking.taxiId booking_arrived)) by (by left).
  split; [exact Hunset|].
  destruct (bookingData_explicit_null booking_arrived _ _ eq_refl eq_refl)
    as (row & Hrow & Htaxi & _).
  exists row. split; [exact Hrow | exact (Htaxi Hunset)].
Defined.

(** ** What the operations return *)

Lemma saveBooking_run {S} (await : Query → eff S Response) (b : Booking)
  (σ : S) :
  saveBooking await b σ =
  match bookingData b with
  | Throw e => (Normal (write_failure (catch_message e)), σ)
  | Normal row =>
      let '(outcome, σ') := await (insert_query row) σ in
      (Normal (from_option write_failure write_ok (failure_of outcome)), σ')
  end.
Proof.
  unfold saveBooking, try_catch, mbind, eff_bind, lift.
  destruct (bookingData b) as [row|e]; [|done].
  fold (insert_query row).
  destruct (await (insert_query row) σ) as [[resp|e] σ']; [|done].
  simpl. by destruct (Response.error resp).
Qed.

Lemma updateBookingStatus_run {S} (await : Query → eff S Response)
  (bookingId status : string) (σ : S) :
  updateBookingStatus await bookingId status σ =
  let '(outcome, σ') := await (status_query bookingId status) σ in
  (Normal (from_option write_failure write_ok (failure_of outcome)), σ').
Proof.
  unfold updateBookingStatus, try_catch, mbind, eff_bind.
  fold (status_query bookingId status).
  destruct (await (status_query bookingId status) σ) as [[resp|e] σ'];
    [|done].
  simpl. by destruct (Response.error resp).
Qed.

Lemma fetch_run {S} (await : Query → eff S Response) (q : Query) (σ : S) :
  try_catch (response ← await q; fetched response) fetch_failed σ =
  let '(outcome, σ') := await q σ in (Normal (fetch_result outcome), σ').
Proof.
  unfold try_catch, mbind, eff_bind, fetched, fetch_result.
  destruct (await q σ) as [[resp|e] σ']; [|done].
  destruct (Response.error resp); try done;
    unfold mbind, eff_bind, lift; fold (bookings_of resp);
    by destruct (bookings_of resp).
Qed.

Lemma fetchUserBookings_run {S} (await : Query → eff S Response)
  (userPhone : string) (σ : S) :
  fetchUserBookings await userPhone σ =
  try_catch (response ← await (user_query userPhone); fetched response)
    fetch_failed σ.
Proof. reflexivity. Qed.

Lemma fetchAllBookings_run {S} (await : Query → eff S Response)
  (limit : option number) (σ : S) :
  fetchAllBookings await limit σ =
  try_catch
    (response ← await (recent_query (default (number_of_Z 50) limit));
     fetched response)
    fetch_failed σ.
Proof. reflexivity. Qed.

Lemma bookingData_throw_message (b : Booking) (e : thrown) :
  bookingData b = Throw e → catch_message e ≠ "".
Proof.
  unfold bookingData.
  destruct (Booking.distance b), (Booking.fare b); simpl;
    intros [= <-]; discriminate.
Qed.

Lemma mapM_mapRecord_throw_message (records : list (optional Row))
  (e : thrown) :
  mapM mapRecord records = Throw e → catch_message e ≠ "".
Proof.
  induction records as [|record records IH]; [done|]. simpl.
  destruct record as [| |row]; simpl; try (intros [= <-]; discriminate).
  unfold mbind, completion_bind in *.
  destruct (mapM mapRecord records); [done|]. intros [= <-]. by apply IH.
Qed.

Lemma bookings_of_throw_message (response : Response) (e : thrown) :
  bookings_of response = Throw e → catch_message e ≠ "".
Proof.
  unfold bookings_of.
  destruct (Response.data response); simpl; try done;
    apply mapM_mapRecord_throw_message.
Qed.

(** ** Failures (C2) *)

(** C2, as stated, fails: when the store answers with an error whose
    message is empty, [saveBooking] reports a failure whose error string is
    empty. *)
Lemma saveBooking_empty_message :
  saveBooking silent_failure booking_full () =
  (Normal {| WriteResult.success := false; WriteResult.error := value "" |},
   ()).
Proof. reflexivity. Qed.

(** C2, amended: whatever the store does, each of the four operations
    completes normally, and when the payload cannot be built, the awaited
    query throws, the response carries an error, or a record of the
    response cannot be read, the result is the failure shape of the
    operation, [{success: false, error}] for the two writes and
    [{bookings: [], error}] for the two fetches, whose error string is the
    message of the store's error or of the Error thrown, or
    ['Unknown error'] for any other thrown value; the message of a failure
    raised while building the payload or reading the records is not
    empty. *)
Theorem operations_report_failures {S} (await : Query → eff S Response)
  (σ : S) :
  (∀ b, ∃ res σ', saveBooking await b σ = (Normal res, σ')
     ∧ (∀ e, bookingData b = Throw e →
          res = write_failure (catch_message e) ∧ catch_message e ≠ "")
     ∧ (∀ row m, bookingData b = Normal row →
          failure_of (await (insert_query row) σ).1 = Some m →
          res = write_failure m))
  ∧ (∀ userPhone, ∃ res σ',
       fetchUserBookings await userPhone σ = (Normal res, σ')
       ∧ (∀ m, failure_of (await (user_query userPhone) σ).1 = Some m →
            res = fetch_failure m)
       ∧ (∀ response e,
            (await (user_query userPhone) σ).1 = Normal response →
            unset (Response.error response) →
            bookings_of response = Throw e →
            res = fetch_failure (catch_message e) ∧ catch_message e ≠ ""))
  ∧ (∀ limit, ∃ res σ',
       fetchAllBookings await limit σ = (Normal res, σ')
       ∧ (∀ m, failure_of
                 (await (recent_query (default (number_of_Z 50) limit)) σ).1
               = Some m →
            res = fetch_failure m)
       ∧ (∀ response e,
            (await (recent_query (default (number_of_Z 50) limit)) σ).1
            = Normal response →
            unset (Response.error response) →
            bookings_of response = Throw e →
            res = fetch_failure (catch_message e) ∧ catch_message e ≠ ""))
  ∧ (∀ bookingId status, ∃ res σ',
       updateBookingStatus await bookingId status σ = (Normal res, σ')
       ∧ (∀ m, failure_of (await (status_query bookingId status) σ).1
               = Some m →
            res = write_failure m)).
Proof.
  assert (Hfetch : ∀ q, ∃ res σ',
    try_catch (response ← await q; fetched response) fetch_failed σ
    = (Normal res, σ')
    ∧ (∀ m, failure_of (await q σ).1 = Some m → res = fetch_failure m)
    ∧ (∀ response e, (await q σ).1 = Normal response →
         unset (Response.error response) →
         bookings_of response = Throw e →
         res = fetch_failure (catch_message e) ∧ catch_message e ≠ "")).
  { intros q. rewrite fetch_run.
    destruct (await q σ) as [outcome σ'].
    do 2 eexists. split; [done|]. simpl. split.
    - intros m. destruct outcome as [resp|e]; simpl; [|by intros [= ->]].
      by destruct (Response.error resp); intros [= ->].
    - intros resp e -> Herr Hmap. simpl. rewrite Hmap.
      split; [by destruct Herr as [-> | ->]|].
      by eapply bookings_of_throw_message. }
  repeat split.
  - intros b. rewrite saveBooking_run.
    destruct (bookingData b) as [row|e] eqn:Hb.
    + destruct (await (insert_query row) σ) as [outcome σ'] eqn:Hq.
      do 2 eexists. split; [done|]. split; [done|].
      intros row' m [= <-]. rewrite Hq. simpl. by intros ->.
    + do 2 eexists. split; [done|]. split; [|done].
      intros e' [= <-]. split; [done|]. by eapply bookingData_throw_message.
  - intros userPhone. rewrite fetchUserBookings_run. apply Hfetch.
  - intros limit. rewrite fetchAllBookings_run. apply Hfetch.
  - intros bookingId status. rewrite updateBookingStatus_run.
    destruct (await (status_query bookingId status) σ) as [outcome σ'].
    do 2 eexists. split; [done|]. simpl. by intros m ->.
Qed.

(** ** Updates that match nothing (C7) *)

(** C7: whenever the awaited update completes with a response that
    carries no error, [updateBookingStatus] reports success, whatever the
    update matched. *)
Theorem updateBookingStatus_success {S} (await : Query → eff S Response)
  (bookingId status : string) (σ σ' : S) (response : Response) :
  await (status_query bookingId status) σ = (Normal response, σ') →
  unset (Response.error response) →
  updateBookingStatus await bookingId status σ = (Normal write_ok, σ').
Proof.
  intros Hq Herr. rewrite updateBookingStatus_run, Hq. simpl.
  by destruct Herr as [-> | ->].
Qed.

(** No row of [sample_table] has the id ["BK9"]: the update leaves the
    table as it is, and the operation reports success. *)
Lemma updateBookingStatus_success_witness :
  (execute unsupported (status_query "BK9" "completed") sample_table).2
    = sample_table
  ∧ updateBookingStatus (execute unsupported) "BK9" "completed" sample_table
    = (Normal write_ok, sample_table).
Proof.
  split; [reflexivity|].
  apply (updateBookingStatus_success (execute unsupported) "BK9" "completed"
           sample_table sample_table (Response.mk null null)).
  - reflexivity.
  - right. reflexivity.
Defined.

(** ** The limit (C9) *)

(** C9: the one query that [fetchAllBookings] sends for a limit, whatever
    Number it is, carries that Number as its limit; with no argument it
    carries 50. *)
Theorem fetchAllBookings_limit_verbatim {S} (await : Query → eff S Response)
  (limit : number) (σ : S) :
  (∃ q, (fetchAllBookings (recording await) (Some limit) ([], σ)).2.1 = [q]
     ∧ q_limit q = Some limit
     ∧ q = recent_query limit)
  ∧ (fetchAllBookings (recording await) None ([], σ)).2.1
    = [recent_query (number_of_Z 50)].
Proof.
  split; [exists (recent_query limit)|];
    rewrite fetchAllBookings_run, fetch_run; simpl.
  - by destruct (await _ σ).
  - by destruct (await _ σ).
Qed.

(** ** Responses with neither data nor error (C10) *)

(** C10: when the awaited select completes with a response that carries
    neither an error nor data, the fetch operation that awaited it returns
    an empty list of bookings and no error. *)
Theorem fetch_without_data {S} (await : Query → eff S Response)
  (q : Query) (σ σ' : S) (response : Response) :
  await q σ = (Normal response, σ') →
  unset (Response.error response) →
  unset (Response.data response) →
  (∀ userPhone, q = user_query userPhone →
     fetchUserBookings await userPhone σ
     = (Normal {| FetchResult.bookings := [];
                  FetchResult.error := undefined |}, σ'))
  ∧ (∀ limit, q = recent_query (default (number_of_Z 50) limit) →
       fetchAllBookings await limit σ
       = (Normal {| FetchResult.bookings := [];
                    FetchResult.error := undefined |}, σ')).
Proof.
  intros Hq Herr Hdata.
  assert (Hres :
    try_catch (response ← await q; fetched response) fetch_failed σ
    = (Normal (fetch_ok []), σ')).
  { rewrite fetch_run, Hq. simpl. unfold bookings_of.
    by destruct Herr as [-> | ->], Hdata as [-> | ->]. }
  split; intros ? ->; apply Hres.
Qed.

(** A store that answers with neither data nor error: no bookings, no
    error. *)
Lemma fetch_without_data_witness :
  fetchUserBookings no_content "555-0100" ()
  = (Normal {| FetchResult.bookings := []; FetchResult.error := undefined |},
     ()).
Proof.
  destruct (fetch_without_data no_content (user_query "555-0100") () ()
              (Response.mk null null)) as [Huser _].
  - reflexivity.
  - right. reflexivity.
  - right. reflexivity.
  - by apply Huser.
Defined.

(** ** The reference store (C5, C6, C8) *)

#[global] Instance newer_first_transitive : Transitive Table.newer_first.
Proof. unfold Table.newer_first. intros r1 r2 r3. lia. Qed.

#[global] Instance newer_first_total : Total Table.newer_first.
Proof. unfold Table.newer_first. intros r1 r2. lia. Qed.

Lemma filter_bool {A} (f : A → bool) (P : A → Prop) `{∀ x, Decision (P x)}
  (l : list A) :
  (∀ x, f x = true ↔ P x) → List.filter f l = filter P l.
Proof.
  intros Hf. induction l as [|x l IH]; [done|]. simpl.
  rewrite filter_cons, IH.
  destruct (f x) eqn:Hx, (decide (P x)) as [HP|HP]; try done.
  - by apply Hf in Hx.
  - apply Hf in HP. congruence.
Qed.

Lemma filter_all {A} (l : list A) : List.filter (fun _ => true) l = l.
Proof. induction l as [|x l IH]; [done|]. simpl. by rewrite IH. Qed.

(** The rows that the store selects for the two fetch queries. *)
Lemma select_rows_user (userPhone : string) (table : list Table.row) :
  select_rows (user_query userPhone) table =
  Some (merge_sort Table.newer_first
          (filter (fun r => Table.user_phone r = userPhone) table)).
Proof.
  unfold select_rows. simpl. do 2 f_equal.
  apply filter_bool. intros r. unfold where_, Table.satisfies. simpl.
  rewrite andb_true_r. apply String.eqb_eq.
Qed.

Lemma select_rows_recent (limit : number) (n : positive)
  (table : list Table.row) :
  integer_of limit = Some (Z.pos n) →
  select_rows (recent_query limit) table =
  Some (take (Pos.to_nat n) (merge_sort Table.newer_first table)).
Proof.
  intros Hn. unfold select_rows. simpl. unfold limit_rows. rewrite Hn.
  unfold where_. simpl. by rewrite filter_all.
Qed.

Lemma execute_select
  (store_defined : Query → eff (list Table.row) Response) (q : Query)
  (table rows : list Table.row) :
  q_table q = "bookings" → q_action q = Select "*" →
  select_rows q table = Some rows →
  execute store_defined q table
  = (Normal (Response.mk (value (map (fun r => value (render r)) rows)) null),
     table).
Proof. unfold execute. by intros -> -> ->. Qed.

Lemma mapM_mapRecord_rendered (rows : list Table.row) :
  mapM mapRecord (map (fun r => value (render r)) rows)
  = Normal (map (fun r => recordToBooking (render r)) rows).
Proof.
  induction rows as [|r rows IH]; [done|]. simpl. by rewrite IH.
Qed.

Lemma fetch_selected {S} (await : Query → eff S Response) (q : Query)
  (σ σ' : S) (rows : list Table.row) :
  await q σ
  = (Normal (Response.mk (value (map (fun r => value (render r)) rows)) null),
     σ') →
  try_catch (response ← await q; fetched response) fetch_failed σ =
  (Normal (fetch_ok (map (fun r => recordToBooking (render r)) rows)), σ').
Proof.
  intros Hq. rewrite fetch_run, Hq. simpl. unfold bookings_of. simpl.
  by rewrite mapM_mapRecord_rendered.
Qed.

(** C5: against the reference store, [fetchUserBookings] returns no error
    and the bookings read from all the rows whose [user_phone] is the given
    string, and from no other row, most recent first. *)
Theorem fetchUserBookings_by_phone
  (store_defined : Query → eff (list Table.row) Response)
  (userPhone : string) (table : list Table.row) :
  ∃ rows,
    fetchUserBookings (execute store_defined) userPhone table
    = (Normal (fetch_ok (map (fun r => recordToBooking (render r)) rows)),
       table)
    ∧ rows ≡ₚ filter (fun r => Table.user_phone r = userPhone) table
    ∧ StronglySorted Table.newer_first rows
    ∧ Forall (fun r => Booking.userPhone (recordToBooking (render r))
                       = value userPhone) rows.
Proof.
  eexists. split; [|split; [|split]].
  - rewrite fetchUserBookings_run. apply fetch_selected.
    apply execute_select; [done..|]. apply select_rows_user.
  - apply merge_sort_Permutation.
  - apply StronglySorted_merge_sort; apply _.
  - rewrite merge_sort_Permutation. apply Forall_forall.
    intros r [Hr _]%list_elem_of_filter. simpl. by rewrite Hr.
Qed.

(** C6: against the reference store, [fetchAllBookings] with a limit that
    is a positive integer [n] returns no error and the bookings read from
    the first [n] rows of the table put most recent first, or from all of
    them if there are fewer. *)
Theorem fetchAllBookings_recent
  (store_defined : Query → eff (list Table.row) Response)
  (limit : number) (n : positive) (table : list Table.row) :
  integer_of limit = Some (Z.pos n) →
  ∃ recent older,
    fetchAllBookings (execute store_defined) (Some limit) table
    = (Normal (fetch_ok (map (fun r => recordToBooking (render r)) recent)),
       table)
    ∧ recent ++ older ≡ₚ table
    ∧ StronglySorted Table.newer_first (recent ++ older)
    ∧ length recent = Nat.min (Pos.to_nat n) (length table).
Proof.
  intros Hn.
  exists (take (Pos.to_nat n) (merge_sort Table.newer_first table)),
         (drop (Pos.to_nat n) (merge_sort Table.newer_first table)).
  split; [|rewrite take_drop; split; [|split]].
  - rewrite fetchAllBookings_run. apply fetch_selected.
    apply execute_select; [done..|]. by apply select_rows_recent.
  - apply merge_sort_Permutation.
  - apply StronglySorted_merge_sort; apply _.
  - by rewrite length_take, merge_sort_Permutation.
Qed.

(** Of the three rows of [sample_table], a limit of 2 returns the two
    most recent, ["BK2"] and ["BK3"]. *)
Lemma fetchAllBookings_recent_witness :
  integer_of (Finite false 1 1) = Some 2
  ∧ ∃ recent older : list Table.row,
      fetchAllBookings (execute unsupported) (Some (Finite false 1 1))
        sample_table
      = (Normal (fetch_ok (map (fun r => recordToBooking (render r)) recent)),
         sample_table)
      ∧ length recent = 2%nat
      ∧ length older = 1%nat.
Proof.
  split; [reflexivity|].
  destruct (fetchAllBookings_recent unsupported (Finite false 1 1) 2
              sample_table eq_refl)
    as (recent & older & Hrun & Hperm & _ & Hlen).
  exists recent, older. split; [exact Hrun|]. split; [exact Hlen|].
  apply Permutation_length in Hperm. rewrite length_app, Hlen in Hperm.
  simpl in Hperm. lia.
Defined.

(** The table that the store leaves after the update of a status. *)
Lemma execute_status
  (store_defined : Query → eff (list Table.row) Response)
  (bookingId status : string) (table : list Table.row) :
  execute store_defined (status_query bookingId status) table
  = (Normal (Response.mk null null),
     map (fun r => if String.eqb (Table.id r) bookingId
                   then Table.write Table.c_status status r else r)
       table).
Proof.
  unfold execute. simpl. apply (f_equal (pair _)).
  apply map_ext. intros r. unfold Table.satisfies. simpl.
  by rewrite andb_true_r.
Qed.

(** C8: against the reference store, [updateBookingStatus] leaves a table
    with the same rows in the same places, where a row whose [id] is not
    the given one is as it was, and a row whose [id] is the given one has
    the given [status] and every other column as it was. *)
Theorem updateBookingStatus_frame
  (store_defined : Query → eff (list Table.row) Response)
  (bookingId status : string) (table : list Table.row) :
  let table' :=
    (updateBookingStatus (execute store_defined) bookingId status table).2 in
  length table' = length table
  ∧ ∀ (i : nat) (r : Table.row), table !! i = Some r →
      ∃ r', table' !! i = Some r'
        ∧ (Table.id r ≠ bookingId → r' = r)
        ∧ (Table.id r = bookingId →
             Table.status r' = status
             ∧ Table.id r' = Table.id r
             ∧ Table.user_name r' = Table.user_name r
             ∧ Table.user_phone r' = Table.user_phone r
             ∧ Table.pickup_location r' = Table.pickup_location r
             ∧ Table.drop_location r' = Table.drop_location r
             ∧ Table.taxi_tier r' = Table.taxi_tier r
             ∧ Table.distance r' = Table.distance r
             ∧ Table.fare r' = Table.fare r
             ∧ Table.taxi_id r' = Table.taxi_id r
             ∧ Table.eta r' = Table.eta r
             ∧ Table.timestamp r' = Table.timestamp r
             ∧ Table.created_at r' = Table.created_at r).
Proof.
  intros table'. subst table'.
  rewrite updateBookingStatus_run, execute_status. simpl. split.
  - apply length_map.
  - intros i r Hr. eexists. split.
    + change (map ?f table) with (f <$> table).
      rewrite list_lookup_fmap, Hr. reflexivity.
    + simpl. destruct (String.eqb_spec (Table.id r) bookingId) as [Heq|Hne].
      * split; [done|]. intros _. by repeat split.
      * split; [done|]. intros Heq. by destruct Hne.
Qed.

(** An update that matches no row leaves the table as it is and is
    reported as a success, like one that matches. *)
Lemma updateBookingStatus_no_match
  (store_defined : Query → eff (list Table.row) Response)
  (bookingId status : string) (table : list Table.row) :
  Forall (fun r => Table.id r ≠ bookingId) table →
  updateBookingStatus (execute store_defined) bookingId status table
  = (Normal write_ok, table).
Proof.
  intros Hno. rewrite updateBookingStatus_run, execute_status. simpl.
  f_equal. induction Hno as [|r table Hr _ IH]; [done|]. simpl.
  rewrite IH. by destruct (String.eqb_spec (Table.id r) bookingId).
Qed.

(** A limit that is not a positive integer is neither clamped nor
    replaced on the way: the answer is the store's own. *)
Lemma execute_recent_store_defined
  (store_defined : Query → eff (list Table.row) Response)
  (limit : number) (table : list Table.row) :
  (∀ n, integer_of limit ≠ Some (Z.pos n)) →
  execute store_defined (recent_query limit) table
  = store_defined (recent_query limit) table.
Proof.
  intros Hn. unfold execute, select_rows. simpl. unfold limit_rows.
  destruct (integer_of limit) as [[|n|n]|]; try done. by destruct (Hn n).
Qed.

(** * Further properties of the module *)

(** ** The payload *)

(** X1: the payload of a booking is built exactly when its [distance] and
    its [fare] both hold a Number; when one of them is unset, building it
    throws an Error whose message is not empty. *)
Theorem bookingData_built_iff (b : Booking) :
  ((∃ row, bookingData b = Normal row)
   ↔ filled (Booking.distance b) ∧ filled (Booking.fare b))
  ∧ (unset (Booking.distance b) ∨ unset (Booking.fare b) →
     ∃ m, bookingData b = Throw (Error m) ∧ m ≠ "").
Proof.
  unfold bookingData, filled, unset.
  destruct (Booking.distance b) as [| |d], (Booking.fare b) as [| |f];
    simpl; (split; [split|]);
    try (intros [row [=]]); try (intros [[? [=]] [? [=]]]);
    try (intros [[[=]|[=]]|[[=]|[=]]]);
    eauto; try (intros _; eexists; split; [reflexivity|discriminate]).
Qed.

(** X2: when a booking holds a value for [id], both locations, [tier],
    [distance], [fare], [status] and [timestamp], its payload holds a
    value for every column that the migration declares [NOT NULL], also
    when the booking has neither [userName] nor [userPhone]. *)
Theorem bookingData_fills_not_null (b : Booking) :
  filled (Booking.id b) →
  filled (Booking.startLocation b) → filled (Booking.endLocation b) →
  filled (Booking.tier b) →
  filled (Booking.distance b) → filled (Booking.fare b) →
  filled (Booking.status b) → filled (Booking.timestamp b) →
  ∃ row, bookingData b = Normal row ∧ fills_not_null row.
Proof.
  intros Hid Hstart Hend Htier [d Hd] [f Hf] Hstatus Htime.
  eexists. split; [by apply (bookingData_numbers b d f)|].
  unfold fills_not_null. simpl. repeat split; try done; try by eexists.
  - destruct (Booking.userName b) as [| |[|c s]]; by eexists.
  - destruct (Booking.userPhone b) as [| |[|c s]]; by eexists.
Qed.

(** The payload of [booking_anonymous], which has neither name nor phone,
    can be inserted as far as [NOT NULL] goes. *)
Lemma bookingData_fills_not_null_witness :
  unset (Booking.userName booking_anonymous)
  ∧ ∃ row, bookingData booking_anonymous = Normal row ∧ fills_not_null row.
Proof.
  split; [by left|].
  apply (bookingData_fills_not_null booking_anonymous); by eexists.
Defined.

(** X3: in the payload, an [eta] of 0 (of either sign) or NaN and a
    [taxiId] that is the empty string are written as [null], like unset
    ones; any other [eta] and [taxiId] are written as they are. *)
Theorem bookingData_falsy_to_null (b : Booking) (d f : number) :
  Booking.distance b = value d → Booking.fare b = value f →
  ∃ row, bookingData b = Normal row
    ∧ (∀ negative, Booking.eta b = value (Zero negative) →
         Row.eta row = null)
    ∧ (Booking.eta b = value NaN → Row.eta row = null)
    ∧ (Booking.taxiId b = value "" → Row.taxi_id row = null)
    ∧ (Row.eta row ≠ null → Row.eta row = Booking.eta b)
    ∧ (Row.taxi_id row ≠ null → Row.taxi_id row = Booking.taxiId b).
Proof.
  intros Hd Hf. eexists. split; [by apply bookingData_numbers|].
  simpl. repeat split.
  - by intros negative ->.
  - by intros ->.
  - by intros ->.
  - unfold or_else. by destruct (ToBoolean (Booking.eta b)).
  - unfold or_else. by destruct (ToBoolean (Booking.taxiId b)).
Qed.

(** The arrival of [booking_arrived], an [eta] of 0, is written as
    [null]. *)
Lemma bookingData_falsy_to_null_witness :
  Booking.eta booking_arrived = value (Zero false)
  ∧ ∃ row, bookingData booking_arrived = Normal row ∧ Row.eta row = null.
Proof.
  split; [reflexivity|].
  destruct (bookingData_falsy_to_null booking_arrived _ _ eq_refl eq_refl)
    as (row & Hrow & Hzero & _).
  exists row. split; [exact Hrow | exact (Hzero false eq_refl)].
Defined.

(** X4: a booking read from a stored row whose [taxi_id] is not the empty
    string, whose [eta] is not 0 and whose [distance] and [fare] are not
    negative zero has a payload, and the booking read from that payload is
    the same booking; the payload differs from the record of the row only
    in that it has no [created_at]. *)
Theorem stored_booking_resaved (r : Table.row) :
  Table.taxi_id r ≠ Some "" → Table.eta r ≠ Some 0 →
  Table.distance r ≠ Zero true → Table.fare r ≠ Zero true →
  ∃ row, bookingData (recordToBooking (render r)) = Normal row
    ∧ recordToBooking row = recordToBooking (render r)
    ∧ Row.created_at row = undefined.
Proof.
  intros Htaxi Heta Hd Hf. eexists.
  split; [by apply (bookingData_numbers _ (Table.distance r) (Table.fare r))|].
  split; [|done]. unfold recordToBooking. simpl.
  rewrite !parseFloat_toString_id by done.
  f_equal.
  - destruct (Table.taxi_id r) as [[|c s]|]; done.
  - destruct (Table.eta r) as [[|n|n]|]; done.
  - by destruct (Table.user_name r).
  - by destruct (Table.user_phone r).
Qed.

(** The first row of [sample_table] survives being read and saved
    again. *)
Lemma stored_booking_resaved_witness :
  ∃ row,
    bookingData (recordToBooking (render (stored "BK1" "555-0100" 1700000000000)))
    = Normal row
    ∧ recordToBooking row
      = recordToBooking (render (stored "BK1" "555-0100" 1700000000000)).
Proof.
  destruct (stored_booking_resaved (stored "BK1" "555-0100" 1700000000000))
    as (row & Hrow & Hback & _); try discriminate.
  exists row. split; [exact Hrow | exact Hback].
Defined.

(** ** What is sent to the store *)

Lemma recording_run {S} (await : Query → eff S Response) (q : Query)
  (log : list Query) (σ : S) :
  recording await q (log, σ)
  = ((await q σ).1, ((log ++ [q])%list, (await q σ).2)).
Proof. unfold recording. by destruct (await q σ). Qed.

(** X5: for a booking whose [distance] and [fare] are Numbers,
    [saveBooking] sends the store one query, an insert into [bookings] of
    one row, the payload of the booking, with no filter, order or limit. *)
Theorem saveBooking_single_insert {S} (await : Query → eff S Response)
  (b : Booking) (d f : number) (σ : S) :
  Booking.distance b = value d → Booking.fare b = value f →
  ∃ row q,
    bookingData b = Normal row
    ∧ (saveBooking (recording await) b ([], σ)).2 = ([q], (await q σ).2)
    ∧ q_table q = "bookings"
    ∧ q_action q = Insert [row]
    ∧ q_filters q = [] ∧ q_order q = None ∧ q_limit q = None.
Proof.
  intros Hd Hf.
  destruct (bookingData b) as [row|e] eqn:Hb;
    [|by rewrite (bookingData_numbers b d f Hd Hf) in Hb].
  exists row, (insert_query row). split; [done|]. split; [|done].
  by rewrite saveBooking_run, Hb, recording_run.
Qed.

(** [booking_full] reaches an offline store as one insert. *)
Lemma saveBooking_single_insert_witness :
  ∃ row q,
    bookingData booking_full = Normal row
    ∧ (saveBooking (recording offline) booking_full ([], ())).2.1 = [q]
    ∧ q_action q = Insert [row].
Proof.
  destruct (saveBooking_single_insert offline booking_full _ _ ()
              eq_refl eq_refl)
    as (row & q & Hrow & Hlog & _ & Hq & _).
  exists row, q. split; [exact Hrow|]. split; [|exact Hq].
  by rewrite Hlog.
Defined.

(** X6: a booking whose [distance] or [fare] is unset is not sent to the
    store at all: [saveBooking] returns a failure with a message that is
    not empty, and the store is as it was. *)
Theorem saveBooking_unbuilt_not_sent {S} (await : Query → eff S Response)
  (b : Booking) (σ : S) :
  unset (Booking.distance b) ∨ unset (Booking.fare b) →
  ∃ m, saveBooking (recording await) b ([], σ)
       = (Normal (write_failure m), ([], σ))
    ∧ m ≠ "".
Proof.
  intros Hunset. rewrite saveBooking_run.
  destruct (bookingData b) as [row|e] eqn:Hb.
  - exfalso. unfold bookingData in Hb.
    by destruct Hunset as [[Hu|Hu]|[Hu|Hu]]; rewrite Hu in Hb;
      destruct (Booking.distance b).
  - exists (catch_message e). split; [done|].
    by eapply bookingData_throw_message.
Qed.

(** [booking_unmeasured] has no [distance] and is not sent. *)
Lemma saveBooking_unbuilt_not_sent_witness :
  ∃ m, saveBooking (recording no_content) booking_unmeasured ([], ())
       = (Normal (write_failure m), ([], ()))
    ∧ m ≠ "".
Proof.
  apply (saveBooking_unbuilt_not_sent no_content booking_unmeasured ()).
  left. left. reflexivity.
Defined.

(** X7: whatever the store answers, an error or a throw included, no
    operation sends a second query: [saveBooking] sends at most one, the
    other three operations exactly one. *)
Theorem operations_send_once {S} (await : Query → eff S Response) (σ : S) :
  (∀ b, (length (saveBooking (recording await) b ([], σ)).2.1 ≤ 1)%nat)
  ∧ (∀ userPhone,
       (fetchUserBookings (recording await) userPhone ([], σ)).2.1
       = [user_query userPhone])
  ∧ (∀ limit,
       (fetchAllBookings (recording await) limit ([], σ)).2.1
       = [recent_query (default (number_of_Z 50) limit)])
  ∧ (∀ bookingId status,
       (updateBookingStatus (recording await) bookingId status ([], σ)).2.1
       = [status_query bookingId status]).
Proof.
  repeat split.
  - intros b. rewrite saveBooking_run.
    destruct (bookingData b); [|simpl; lia]. by rewrite recording_run.
  - intros userPhone.
    by rewrite fetchUserBookings_run, fetch_run, recording_run.
  - intros limit.
    by rewrite fetchAllBookings_run, fetch_run, recording_run.
  - intros bookingId status.
    by rewrite updateBookingStatus_run, recording_run.
Qed.

(** ** What the results say *)

(** X8: the result of a write operation has [success] true exactly when
    it has no [error], and exactly when the query was sent and the store
    answered it, without throwing, by a response that carries no error. *)
Theorem write_success_iff {S} (await : Query → eff S Response) (σ : S) :
  (∀ b, ∃ res σ', saveBooking await b σ = (Normal res, σ')
     ∧ (WriteResult.success res = true ↔ WriteResult.error res = undefined)
     ∧ (WriteResult.success res = true ↔
        ∃ row response, bookingData b = Normal row
          ∧ (await (insert_query row) σ).1 = Normal response
          ∧ unset (Response.error response)))
  ∧ (∀ bookingId status, ∃ res σ',
       updateBookingStatus await bookingId status σ = (Normal res, σ')
       ∧ (WriteResult.success res = true ↔ WriteResult.error res = undefined)
       ∧ (WriteResult.success res = true ↔
          ∃ response,
            (await (status_query bookingId status) σ).1 = Normal response
            ∧ unset (Response.error response))).
Proof.
  assert (Hres : ∀ outcome : completion Response,
    let res := from_option write_failure write_ok (failure_of outcome) in
    (WriteResult.success res = true ↔ WriteResult.error res = undefined)
    ∧ (WriteResult.success res = true ↔
       ∃ response, outcome = Normal response
         ∧ unset (Response.error response))).
  { intros [resp|e]; simpl.
    - unfold unset. destruct (Response.error resp) eqn:Herr; simpl;
        (split; [done|]); split; try done; eauto.
      by intros (resp' & [= <-] & [Hu|Hu]); rewrite Herr in Hu.
    - split; [done|]. split; [done|]. by intros (? & [=] & _). }
  split.
  - intros b. rewrite saveBooking_run.
    destruct (bookingData b) as [row|e] eqn:Hb.
    + destruct (await (insert_query row) σ) as [outcome σ'] eqn:Hq.
      do 2 eexists. split; [done|].
      destruct (Hres outcome) as [Herr Hok]. split; [done|].
      rewrite Hok. split.
      * intros (resp & -> & Hu). exists row, resp. by rewrite Hq.
      * intros (row' & resp & [= <-] & Hout & Hu). rewrite Hq in Hout.
        by exists resp.
    + do 2 eexists. split; [done|]. simpl. split; [done|].
      split; [done|]. by intros (? & ? & [=] & _).
  - intros bookingId status. rewrite updateBookingStatus_run.
    destruct (await (status_query bookingId status) σ) as [outcome σ'].
    do 2 eexists. split; [done|]. apply Hres.
Qed.

(** X9: the result of a fetch operation never holds both bookings and an
    error; it has no [error] exactly when the store answered, without
    throwing, by a response that carries no error and whose records could
    all be read, and then its bookings are those read from the records. *)
Theorem fetch_error_excludes_bookings {S} (await : Query → eff S Response)
  (σ : S) :
  (∀ userPhone, ∃ res σ',
     fetchUserBookings await userPhone σ = (Normal res, σ')
     ∧ (FetchResult.error res = undefined ∨ FetchResult.bookings res = [])
     ∧ (FetchResult.error res = undefined ↔
        ∃ response,
          (await (user_query userPhone) σ).1 = Normal response
          ∧ unset (Response.error response)
          ∧ bookings_of response = Normal (FetchResult.bookings res)))
  ∧ (∀ limit, ∃ res σ',
       fetchAllBookings await limit σ = (Normal res, σ')
       ∧ (FetchResult.error res = undefined ∨ FetchResult.bookings res = [])
       ∧ (FetchResult.error res = undefined ↔
          ∃ response,
            (await (recent_query (default (number_of_Z 50) limit)) σ).1
            = Normal response
            ∧ unset (Response.error response)
            ∧ bookings_of response = Normal (FetchResult.bookings res))).
Proof.
  assert (Hres : ∀ outcome : completion Response,
    let res := fetch_result outcome in
    (FetchResult.error res = undefined ∨ FetchResult.bookings res = [])
    ∧ (FetchResult.error res = undefined ↔
       ∃ response, outcome = Normal response
         ∧ unset (Response.error response)
         ∧ bookings_of response = Normal (FetchResult.bookings res))).
  { intros [resp|e]; simpl.
    - unfold unset.
      destruct (Response.error resp) eqn:Herr;
        [destruct (bookings_of resp) eqn:Hmap; simpl..
        |simpl; split; [by right|]; split; [done|];
         by intros (resp' & [= <-] & [Hu|Hu] & _); rewrite Herr in Hu];
        (split; [by (left + right)|]); split; try done; eauto;
        by intros (resp' & [= <-] & _ & Hm); rewrite Hmap in Hm.
    - split; [by right|]. split; [done|]. by intros (? & [=] & _). }
  assert (Hfetch : ∀ q, ∃ res σ',
    try_catch (response ← await q; fetched response) fetch_failed σ
    = (Normal res, σ')
    ∧ (FetchResult.error res = undefined ∨ FetchResult.bookings res = [])
    ∧ (FetchResult.error res = undefined ↔
       ∃ response, (await q σ).1 = Normal response
         ∧ unset (Response.error response)
         ∧ bookings_of response = Normal (FetchResult.bookings res))).
  { intros q. rewrite fetch_run. destruct (await q σ) as [outcome σ'].
    do 2 eexists. split; [done|]. apply Hres. }
  split; intros ?; [rewrite fetchUserBookings_run | rewrite fetchAllBookings_run];
    apply Hfetch.
Qed.

(** ** The records of a response *)

Lemma mapM_mapRecord_values (rows : list Row) :
  mapM mapRecord (map value rows) = Normal (map recordToBooking rows).
Proof. induction rows as [|r rows IH]; [done|]. simpl. by rewrite IH. Qed.

Lemma mapM_mapRecord_unset (records : list (optional Row))
  (record : optional Row) :
  record ∈ records → unset record →
  ∃ e, mapM mapRecord records = Throw e.
Proof.
  intros Hin Hunset. induction Hin as [record records|record r records _ IH].
  - destruct Hunset as [-> | ->]; simpl; eauto.
  - destruct (IH Hunset) as [e He]. simpl. rewrite He.
    destruct (mapRecord r); simpl; eauto.
Qed.

(** X10: when one record of the answer to a fetch is [undefined] or
    [null], the fetch operation returns no booking at all, not even those
    of the records before it, and an error whose message is not empty. *)
Theorem fetch_unreadable_record {S} (await : Query → eff S Response)
  (q : Query) (σ σ' : S) (response : Response)
  (records : list (optional Row)) (record : optional Row) :
  await q σ = (Normal response, σ') →
  unset (Response.error response) →
  Response.data response = value records →
  record ∈ records → unset record →
  (∀ userPhone, q = user_query userPhone →
     ∃ m, fetchUserBookings await userPhone σ
          = (Normal {| FetchResult.bookings := [];
                       FetchResult.error := value m |}, σ')
       ∧ m ≠ "")
  ∧ (∀ limit, q = recent_query (default (number_of_Z 50) limit) →
       ∃ m, fetchAllBookings await limit σ
            = (Normal {| FetchResult.bookings := [];
                         FetchResult.error := value m |}, σ')
         ∧ m ≠ "").
Proof.
  intros Hq Herr Hdata Hin Hunset.
  destruct (mapM_mapRecord_unset records record Hin Hunset) as [e He].
  assert (Hmap : bookings_of response = Throw e).
  { unfold bookings_of. by rewrite Hdata. }
  assert (Hres : ∃ m,
    try_catch (response ← await q; fetched response) fetch_failed σ
    = (Normal (fetch_failure m), σ') ∧ m ≠ "").
  { exists (catch_message e). rewrite fetch_run, Hq. simpl. rewrite Hmap.
    split; [by destruct Herr as [-> | ->]|].
    by eapply bookings_of_throw_message. }
  split; intros ? ->; apply Hres.
Qed.

(** A response whose second record is [null] gives no booking. *)
Lemma fetch_unreadable_record_witness :
  ∃ m,
    fetchAllBookings
      (answering
         (Response.mk
            (value [value (render (stored "BK2" "555-0199" 1700000300000));
                    null])
            null))
      None ()
    = (Normal {| FetchResult.bookings := [];
                 FetchResult.error := value m |}, ())
    ∧ m ≠ "".
Proof.
  eapply (fetch_unreadable_record (answering _)
            (recent_query (number_of_Z 50)) () () _ _ null).
  - reflexivity.
  - right. reflexivity.
  - reflexivity.
  - apply list_elem_of_further, list_elem_of_here.
  - right. reflexivity.
  - reflexivity.
Defined.

(** X11: when every record of the answer to a fetch is an object, the
    fetch operation returns one booking for each record, in the order of
    the answer, and no error: it neither sorts, filters nor truncates what
    the store returns. *)
Theorem fetch_keeps_order {S} (await : Query → eff S Response)
  (q : Query) (σ σ' : S) (response : Response) (rows : list Row) :
  await q σ = (Normal response, σ') →
  unset (Response.error response) →
  Response.data response = value (map value rows) →
  (∀ userPhone, q = user_query userPhone →
     fetchUserBookings await userPhone σ
     = (Normal {| FetchResult.bookings := map recordToBooking rows;
                  FetchResult.error := undefined |}, σ'))
  ∧ (∀ limit, q = recent_query (default (number_of_Z 50) limit) →
       fetchAllBookings await limit σ
       = (Normal {| FetchResult.bookings := map recordToBooking rows;
                    FetchResult.error := undefined |}, σ')).
Proof.
  intros Hq Herr Hdata.
  assert (Hres :
    try_catch (response ← await q; fetched response) fetch_failed σ
    = (Normal (fetch_ok (map recordToBooking rows)), σ')).
  { rewrite fetch_run, Hq. simpl. unfold bookings_of. rewrite Hdata. simpl.
    rewrite mapM_mapRecord_values. by destruct Herr as [-> | ->]. }
  split; intros ? ->; apply Hres.
Qed.

(** The two records of [two_records] come back as two bookings, ["BK2"]
    before ["BK1"], although the limit asked for is 1. *)
Lemma fetch_keeps_order_witness :
  fetchAllBookings
    (answering (Response.mk (value (map value two_records)) null))
    (Some (number_of_Z 1)) ()
  = (Normal {| FetchResult.bookings := map recordToBooking two_records;
               FetchResult.error := undefined |}, ())
  ∧ map Booking.id (map recordToBooking two_records)
    = [value "BK2"; value "BK1"].
Proof.
  split; [|reflexivity].
  eapply (fetch_keeps_order (answering _) (recent_query (number_of_Z 1))
            () () _ two_records).
  - reflexivity.
  - right. reflexivity.
  - reflexivity.
  - reflexivity.
Defined.

(** ** Updates and fetches against the reference store *)

Section SortMapped.

(** Sorting commutes with a map that does not change how the elements
    compare. *)
Context {A : Type} (R : relation A) `{∀ x y, Decision (R x y)}.
Variable f : A → A.
Hypothesis f_compares : ∀ x y, R (f x) (f y) ↔ R x y.






End SortMapped.




Lemma updated_table
  (store_defined : Query → eff (list Table.row) Response)
  (bookingId status : string) (table : list Table.row) :
  updateBookingStatus (execute store_defined) bookingId status table
  = (Normal write_ok,
     map (fun r => if String.eqb (Table.id r) bookingId
                   then Table.write Table.c_status status r else r) table).
Proof. by rewrite updateBookingStatus_run, execute_status. Qed.




(** X13: against the reference store, of two updates of the status of
    the same booking the last one wins: both are reported as successes and
    the table is the one that the second update alone would leave; in
    particular an update made twice is the update made once. *)
Theorem update_last_write_wins
  (store_defined : Query → eff (list Table.row) Response)
  (bookingId first second : string) (table : list Table.row) :
  let update status := updateBookingStatus (execute store_defined)
                         bookingId status in
  update second (update first table).2
  = (Normal write_ok, (update second table).2)
  ∧ (update first table).1 = Normal write_ok.
Proof.
  intros update. unfold update. rewrite !updated_table.
  split; [|done]. cbn [snd]. f_equal.
  rewrite map_map. apply map_ext. intros r.
  by destruct (String.eqb (Table.id r) bookingId) eqn:Hid; simpl;
    rewrite ?Hid.
Qed.

(** X14: against the reference store, [fetchAllBookings] without an
    argument returns no error and the bookings of the 50 most recent rows,
    most recent first, or of all the rows when there are fewer. *)
Theorem fetchAllBookings_default_limit
  (store_defined : Query → eff (list Table.row) Response)
  (table : list Table.row) :
  ∃ recent older,
    fetchAllBookings (execute store_defined) None table
    = (Normal (fetch_ok (map (fun r => recordToBooking (render r)) recent)),
       table)
    ∧ recent ++ older ≡ₚ table
    ∧ StronglySorted Table.newer_first (recent ++ older)
    ∧ length recent = Nat.min 50 (length table).
Proof.
  exists (take 50 (merge_sort Table.newer_first table)),
         (drop 50 (merge_sort Table.newer_first table)).
  split; [|rewrite take_drop; split; [|split]].
  - rewrite fetchAllBookings_run. apply fetch_selected.
    apply execute_select; [done..|].
    by apply (select_rows_recent (number_of_Z 50) 50).
  - apply merge_sort_Permutation.
  - apply StronglySorted_merge_sort; apply _.
  - by rewrite length_take, merge_sort_Permutation.
Qed.

(** X15: against the reference store, [fetchUserBookings] for a phone
    number that no row has returns an empty list of bookings and no error,
    an empty table included. *)
Theorem fetchUserBookings_unknown_phone
  (store_defined : Query → eff (list Table.row) Response)
  (userPhone : string) (table : list Table.row) :
  Forall (fun r => Table.user_phone r ≠ userPhone) table →
  fetchUserBookings (execute store_defined) userPhone table
  = (Normal {| FetchResult.bookings := []; FetchResult.error := undefined |},
     table).
Proof.
  intros Hnone. rewrite fetchUserBookings_run.
  erewrite fetch_selected;
    [|apply execute_select; [done..|apply select_rows_user]].
  replace (filter _ table) with (@nil Table.row); [done|].
  induction Hnone as [|r table Hr _ IH]; [done|].
  by rewrite filter_cons_False.
Qed.

(** No row of [sample_table] has the phone number ["555-0000"]. *)
Lemma fetchUserBookings_unknown_phone_witness :
  fetchUserBookings (execute unsupported) "555-0000" sample_table
  = (Normal {| FetchResult.bookings := []; FetchResult.error := undefined |},
     sample_table).
Proof.
  apply (fetchUserBookings_unknown_phone unsupported "555-0000" sample_table).
  repeat constructor; discriminate.
Defined.
